(** * Coding-standards training examples: the five violation files

    The repository holds five translation units of deliberately
    rule-violating C and C++ code
    (src/c/misra_violations.c, src/c/cert_c_violations.c,
     src/cpp/autosar_violations.cpp, src/cpp/cert_cpp_violations.cpp,
     src/cpp/misra_cpp_violations.cpp), a Makefile and a README.

    This development embeds
    - the function bodies that compute on [int]
      ([misra_cpp_6_6_5], [autosar_a5_1_1], [misra_rule_8_4_func], the
      loop of [misra_rule_15_6]) and the subscript of [cert_ctr50_cpp],
    - the functions that obtain and release dynamic storage
      ([misra_rule_21_3], [autosar_a18_5_1], [cert_mem30_c],
      [cert_mem52_cpp], [misra_cpp_18_4_1], [autosar_a15_1_2]), over a
      heap of blocks and for either answer of the allocator, and
    - the top-level layout of every translation unit: its rule sections,
      the declarations under each banner comment, and the statements of
      its [main], from which the functions that [main] calls are computed. *)

From stdpp Require Import base decidable option list strings.
From stdpp Require Import gmap.
From Stdlib Require Import ZArith Lia.

Open Scope string_scope.
Open Scope Z_scope.

(** ** C++ [int] *)

Module CInt.

Definition INT_MIN : Z := - 2 ^ 31.
Definition INT_MAX : Z := 2 ^ 31 - 1.

(** The values an [int] object can hold (32-bit two's complement, as on
    the gcc/g++ targets of the Makefile). *)
Definition in_range (x : Z) : Prop := INT_MIN ≤ x ≤ INT_MAX.

End CInt.

(** ** misra_cpp_violations.cpp, Rule 6-6-5 *)

Module MisraCpp.

(** [int misra_cpp_6_6_5(int x)]: two early returns and the normal one.
    The body compares and returns constants only, so no arithmetic can
    wrap. *)
Definition misra_cpp_6_6_5 (x : Z) : Z :=
  if x >? 0 then 1          (* Early return #1 *)
  else if x <? 0 then -1    (* Early return #2 *)
  else 0.                   (* Normal return *)

End MisraCpp.

(** ** cert_cpp_violations.cpp, CTR50-CPP *)

Module CertCpp.

(** [std::vector<int>] as the list of its elements.  [operator[]] has no
    defined result outside [0, size()); the total embedding answers [None]
    there. *)
Definition vector := list Z.

Definition subscript (vec : vector) (i : nat) : option Z := vec !! i.

(** [std::vector<int> vec = {1, 2, 3};] *)
Definition cert_ctr50_cpp_vec : vector := [1; 2; 3].

(** The index of [vec[5]]. *)
Definition cert_ctr50_cpp_index : nat := 5%nat.

(** [void cert_ctr50_cpp()]: builds [vec], reads [vec[5]] into [val],
    discards [val].  [Some ()] is a normal return, [None] an access
    without a defined result. *)
Definition cert_ctr50_cpp : option unit :=
  let vec := cert_ctr50_cpp_vec in
  val ← subscript vec cert_ctr50_cpp_index;
  let _ := val in
  Some ().

End CertCpp.

(** ** Layout of a translation unit *)

Module Layout.

Inductive decl_kind : Type :=
  | Function      (* a free function definition *)
  | Object        (* a namespace-scope variable *)
  | StructType    (* a struct definition *)
  | ClassType.    (* a class definition *)

#[global] Instance decl_kind_eq_dec : EqDecision decl_kind.
Proof. solve_decision. Defined.

Record decl : Type := Decl { d_name : string; d_kind : decl_kind }.

(** One banner comment naming a rule, with the declarations under it:
    [violation] is the construct that breaks the rule (named after it,
    or the only declaration of the section), [helpers] the declarations
    that precede it in the section. *)
Record rule_section : Type := Section_ {
  rule : string;
  helpers : list decl;
  violation : decl
}.

(** Arguments as they occur in the [main] functions: literals and one
    local variable. *)
Inductive arg : Type :=
  | Lit (n : Z)
  | Var (x : string).

(** Statements as they occur in the [main] functions.  A call that is
    commented out is a comment, not a statement. *)
Inductive stmt : Type :=
  | Call (f : string) (args : list arg)           (* f(args); *)
  | Discard (f : string) (args : list arg)        (* static_cast<void>(f(args)); (void)f(args); *)
  | DeclLocal (ty x : string)                     (* T x;  T x = {...}; *)
  | FieldAssign (obj fld : string) (v : Z)        (* obj.fld = v; *)
  | MemberCall (obj meth : string) (args : list arg)  (* obj.meth(args); *)
  | Return (v : Z).                               (* return v; *)

Record source_file : Type := SourceFile {
  path : string;
  sections : list rule_section;
  main : list stmt
}.

(** The free functions a statement calls. *)
Definition callee (s : stmt) : list string :=
  match s with
  | Call f _ | Discard f _ => [f]
  | DeclLocal _ _ | FieldAssign _ _ _ | MemberCall _ _ _ | Return _ => []
  end.

(** The free functions a body calls, in order. *)
Definition callees (body : list stmt) : list string :=
  body ≫= callee.

Definition fn (name : string) : decl := Decl name Function.

(** A section whose only declaration is the rule-named function. *)
Definition plain (r name : string) : rule_section := Section_ r [] (fn name).

End Layout.

Import Layout.

(** ** The five translation units *)

Module Repo.

(** src/cpp/misra_cpp_violations.cpp *)
Definition misra_cpp_violations : source_file := {|
  path := "src/cpp/misra_cpp_violations.cpp";
  sections := [
    plain "0-1-1" "misra_cpp_0_1_1";
    Section_ "2-10-2" [Decl "outer_var" Object] (fn "misra_cpp_2_10_2");
    plain "5-0-3" "misra_cpp_5_0_3";
    plain "5-2-4" "misra_cpp_5_2_4";
    plain "6-4-2" "misra_cpp_6_4_2";
    plain "6-6-5" "misra_cpp_6_6_5";
    plain "15-3-5" "misra_cpp_15_3_5";
    plain "18-0-1" "misra_cpp_18_0_1";
    plain "18-4-1" "misra_cpp_18_4_1";
    plain "27-0-1" "misra_cpp_27_0_1" ];
  main := [
    Discard "misra_cpp_0_1_1" [Lit 5];
    Call "misra_cpp_2_10_2" [];
    Call "misra_cpp_5_0_3" [];
    Call "misra_cpp_5_2_4" [];
    Call "misra_cpp_6_4_2" [Lit 1];
    Discard "misra_cpp_6_6_5" [Lit 5];
    Call "misra_cpp_15_3_5" [];
    Call "misra_cpp_18_0_1" [];
    Call "misra_cpp_18_4_1" [];
    Call "misra_cpp_27_0_1" [];
    Return 0 ]
|}.

(** src/cpp/cert_cpp_violations.cpp.  The first line of [main] is the
    comment [// cert_err50_cpp();  // Would terminate — commented for demo],
    so the body starts at the call of [cert_dcl50_cpp]. *)
Definition cert_cpp_violations : source_file := {|
  path := "src/cpp/cert_cpp_violations.cpp";
  sections := [
    plain "ERR50-CPP" "cert_err50_cpp";
    Section_ "ERR58-CPP" [] (Decl "global_str" Object);
    plain "DCL50-CPP" "cert_dcl50_cpp";
    Section_ "OOP57-CPP" [Decl "SimpleData" StructType] (fn "cert_oop57_cpp");
    plain "EXP55-CPP" "cert_exp55_cpp";
    plain "CTR50-CPP" "cert_ctr50_cpp";
    plain "MEM52-CPP" "cert_mem52_cpp";
    plain "ERR61-CPP" "cert_err61_cpp";
    plain "MSC50-CPP" "cert_msc50_cpp";
    Section_ "OOP51-CPP"
      [Decl "Base" ClassType; Decl "Derived" ClassType; fn "process_by_value"]
      (fn "cert_oop51_cpp") ];
  main := [
    Call "cert_dcl50_cpp" [Lit 1; Lit 2; Lit 3];
    Call "cert_oop57_cpp" [];
    Call "cert_exp55_cpp" [];
    Call "cert_ctr50_cpp" [];
    Call "cert_mem52_cpp" [];
    Call "cert_err61_cpp" [];
    Call "cert_msc50_cpp" [];
    Call "cert_oop51_cpp" [];
    Return 0 ]
|}.

(** src/cpp/autosar_violations.cpp.  Its [main] stands under the banner
    [Helper: entry point to call all violation functions.] *)
Definition autosar_violations : source_file := {|
  path := "src/cpp/autosar_violations.cpp";
  sections := [
    plain "A0-1-1" "autosar_a0_1_1";
    Section_ "A0-1-2" [fn "helper_returns_value"] (fn "autosar_a0_1_2");
    Section_ "A2-10-1" [Decl "shadow_var" Object] (fn "autosar_a2_10_1");
    plain "A5-1-1" "autosar_a5_1_1";
    plain "A7-1-5" "autosar_a7_1_5";
    Section_ "A11-0-2" [] (Decl "autosar_a11_0_2_struct" StructType);
    plain "A15-1-2" "autosar_a15_1_2";
    plain "A18-1-1" "autosar_a18_1_1";
    plain "A18-5-1" "autosar_a18_5_1";
    plain "M5-0-3" "autosar_m5_0_3";
    plain "A5-2-2" "autosar_a5_2_2";
    plain "A3-9-1" "autosar_a3_9_1";
    plain "M6-4-1" "autosar_m6_4_1";
    plain "A8-4-7" "autosar_a8_4_7" ];
  main := [
    Call "autosar_a0_1_1" [];
    Call "autosar_a0_1_2" [];
    Call "autosar_a2_10_1" [];
    Discard "autosar_a5_1_1" [Lit 10];
    Call "autosar_a7_1_5" [];
    DeclLocal "autosar_a11_0_2_struct" "s";
    FieldAssign "s" "visible" 1;
    MemberCall "s" "set_secret" [Lit 2];
    Call "autosar_a18_1_1" [];
    Call "autosar_a18_5_1" [];
    Call "autosar_m5_0_3" [];
    Call "autosar_a5_2_2" [];
    Call "autosar_a3_9_1" [];
    Call "autosar_m6_4_1" [Lit 1];
    DeclLocal "std::vector<int>" "v";
    Call "autosar_a8_4_7" [Var "v"];
    Return 0 ]
|}.

(** src/c/misra_violations.c *)
Definition misra_violations : source_file := {|
  path := "src/c/misra_violations.c";
  sections := [
    plain "Rule 2.2" "misra_rule_2_2";
    plain "Rule 8.4" "misra_rule_8_4_func";
    plain "Rule 10.1" "misra_rule_10_1";
    plain "Rule 10.3" "misra_rule_10_3";
    plain "Rule 11.3" "misra_rule_11_3";
    plain "Rule 12.1" "misra_rule_12_1";
    plain "Rule 14.4" "misra_rule_14_4";
    plain "Rule 15.6" "misra_rule_15_6";
    plain "Rule 17.7" "misra_rule_17_7";
    plain "Rule 21.3" "misra_rule_21_3";
    plain "Rule 21.6" "misra_rule_21_6";
    plain "Dir 4.6" "misra_dir_4_6";
    Section_ "Rule 8.7" [] (Decl "misra_rule_8_7_global" Object) ];
  main := [
    Call "misra_rule_2_2" [];
    Discard "misra_rule_8_4_func" [Lit 1];
    Call "misra_rule_10_1" [];
    Call "misra_rule_10_3" [];
    Call "misra_rule_11_3" [];
    Call "misra_rule_12_1" [];
    Call "misra_rule_14_4" [];
    Call "misra_rule_15_6" [];
    Call "misra_rule_17_7" [];
    Call "misra_rule_21_3" [];
    Call "misra_rule_21_6" [];
    Call "misra_dir_4_6" [];
    Return 0 ]
|}.

(** src/c/cert_c_violations.c *)
Definition cert_c_violations : source_file := {|
  path := "src/c/cert_c_violations.c";
  sections := [
    plain "EXP30-C" "cert_exp30_c";
    plain "EXP33-C" "cert_exp33_c";
    plain "ARR30-C" "cert_arr30_c";
    plain "MEM30-C" "cert_mem30_c";
    plain "MEM35-C" "cert_mem35_c";
    plain "STR31-C" "cert_str31_c";
    plain "ERR33-C" "cert_err33_c";
    Section_ "SIG30-C" [fn "bad_signal_handler"] (fn "cert_sig30_c");
    plain "MSC32-C" "cert_msc32_c";
    plain "INT31-C" "cert_int31_c";
    plain "DCL30-C" "cert_dcl30_c" ];
  main := [
    Call "cert_exp30_c" [];
    Call "cert_exp33_c" [];
    Call "cert_arr30_c" [];
    Call "cert_mem30_c" [];
    Call "cert_mem35_c" [];
    Call "cert_str31_c" [];
    Call "cert_err33_c" [];
    Call "cert_sig30_c" [];
    Call "cert_msc32_c" [];
    Call "cert_int31_c" [];
    Discard "cert_dcl30_c" [];
    Return 0 ]
|}.

(** Every source file of the repository. *)
Definition repository : list source_file :=
  [ misra_violations; cert_c_violations;
    autosar_violations; cert_cpp_violations; misra_cpp_violations ].

(** The rule-violating constructs that are not functions. *)
Definition not_functions : list string :=
  ["global_str"; "autosar_a11_0_2_struct"; "misra_rule_8_7_global"].

(** The wiring as the specification words it, for one file: every
    rule-violating construct is a function, and [main] calls it. *)
Definition wired_into_main (f : source_file) : Prop :=
  ∀ s, s ∈ sections f →
    d_kind (violation s) = Function ∧
    d_name (violation s) ∈ callees (main f).

(** The wiring the files have, for one section. *)
Definition wired_section (f : source_file) (s : rule_section) : Prop :=
  (d_kind (violation s) ≠ Function ↔ d_name (violation s) ∈ not_functions) ∧
  (d_kind (violation s) = Function →
   d_name (violation s) ≠ "cert_err50_cpp" →
   d_name (violation s) ≠ "autosar_a15_1_2" →
   d_name (violation s) ∈ callees (main f)).

End Repo.

Import Repo.

(** ** Signed [int] arithmetic *)

Module CArith.

(** The result of a signed operation: the mathematical value when an
    [int] can hold it, nothing otherwise (signed overflow has no defined
    result in C or C++). *)
Definition checked (z : Z) : option Z :=
  if bool_decide (CInt.in_range z) then Some z else None.

Definition add (a b : Z) : option Z := checked (a + b).
Definition mul (a b : Z) : option Z := checked (a * b).

End CArith.

(** ** Functions that compute on [int] *)

Module Arith.

(** autosar_violations.cpp: [int autosar_a5_1_1(int input)],
    [return input * 3600;] *)
Definition autosar_a5_1_1 (input : Z) : option Z :=
  CArith.mul input 3600.

(** misra_violations.c: [int misra_rule_8_4_func(int a)],
    [return a + 1;] *)
Definition misra_rule_8_4_func (a : Z) : option Z :=
  CArith.add a 1.

(** misra_violations.c, [misra_rule_15_6]: the loop
    [for (...; i < 10; i++) i++;] entered with [i].  Each round runs the
    body's [i++] and then the step's [i++]; [fuel] bounds the number of
    times the condition is tested.  The answer is the value of [i] at
    the exit. *)
Fixpoint misra_rule_15_6_loop (fuel : nat) (i : Z) : option Z :=
  match fuel with
  | O => None
  | S fuel' =>
      if i <? 10 then
        i1 ← CArith.add i 1;
        i2 ← CArith.add i1 1;
        misra_rule_15_6_loop fuel' i2
      else Some i
  end.

(** [void misra_rule_15_6(void)]: [int i; for (i = 0; ...)]. *)
Definition misra_rule_15_6 (fuel : nat) : option Z :=
  misra_rule_15_6_loop fuel 0.

End Arith.

(** ** Dynamic storage *)

Module Mem.

(** A pointer: null, or a block and an element offset into it. *)
Inductive ptr : Type :=
  | Null
  | Ptr (b : positive) (off : Z).

(** How a block was obtained; it must be released the same way. *)
Inductive alloc_kind : Type :=
  | ByMalloc       (* malloc / std::malloc, released by free *)
  | ByNew          (* new T(...), released by delete *)
  | ByNewArray.    (* new T[n], released by delete[] *)

#[global] Instance alloc_kind_eq_dec : EqDecision alloc_kind.
Proof. solve_decision. Defined.

(** What a block holds: [n] objects of type int, of which the
    initialised ones are in [cells], or one [std::runtime_error]. *)
Inductive contents : Type :=
  | Ints (n : Z) (cells : gmap Z Z)
  | RuntimeError (what : string).

Record block : Type := Block { b_kind : alloc_kind; b_contents : contents }.

(** The live blocks of the free store. *)
Abbreviation heap := (gmap positive block).

(** What can be thrown in the modelled functions. *)
Inductive exn : Type :=
  | BadAlloc                      (* std::bad_alloc, from a failed new *)
  | RuntimeErrorPtr (p : ptr).    (* a std::runtime_error*, thrown by value *)

(** How a piece of code ends: normally with a value and a heap, by an
    exception that leaves it, or without defined behaviour. *)
Inductive outcome (A : Type) : Type :=
  | Done (a : A) (h : heap)
  | Thrown (e : exn) (h : heap)
  | Undefined.
Arguments Done {A} a h.
Arguments Thrown {A} e h.
Arguments Undefined {A}.

Definition M (A : Type) : Type := heap → outcome A.

Definition ret {A} (a : A) : M A := λ h, Done a h.

Definition bind {A B} (m : M A) (k : A → M B) : M B := λ h,
  match m h with
  | Done a h' => k a h'
  | Thrown e h' => Thrown e h'
  | Undefined => Undefined
  end.

Definition throw {A} (e : exn) : M A := λ h, Thrown e h.

(** [try { body } catch (...) { ... }]: [handler e] is the handler that
    matches [e], if the catch clauses have one. *)
Definition try_catch {A} (body : M A) (handler : exn → option (M A)) : M A := λ h,
  match body h with
  | Thrown e h' =>
      match handler e with
      | Some k => k h'
      | None => Thrown e h'
      end
  | r => r
  end.

#[global] Instance M_ret : MRet M := @ret.
#[global] Instance M_bind : MBind M := λ A B k m, bind m k.

(** The allocator's answer is the environment's: [Some b] is the block it
    hands out, [None] its failure. *)
Definition allocate (k : alloc_kind) (c : contents) (fresh : option positive)
    : M (option ptr) := λ h,
  match fresh with
  | Some b => Done (Some (Ptr b 0)) (<[b := Block k c]> h)
  | None => Done None h
  end.

(** [(int * )malloc(sizeof(int) * n)]: room for [n] ints, uninitialised,
    or NULL. *)
Definition malloc_ints (n : Z) (fresh : option positive) : M ptr :=
  r ← allocate ByMalloc (Ints n ∅) fresh;
  ret (default Null r).

(** [new (std::nothrow) int[n]]: as above, nullptr on failure. *)
Definition new_nothrow_ints (n : Z) (fresh : option positive) : M ptr :=
  r ← allocate ByNewArray (Ints n ∅) fresh;
  ret (default Null r).

(** [new int(v)]: one initialised int; throws std::bad_alloc on failure. *)
Definition new_int (v : Z) (fresh : option positive) : M ptr :=
  r ← allocate ByNew (Ints 1 {[ 0 := v ]}) fresh;
  match r with Some p => ret p | None => throw BadAlloc end.

(** [new std::runtime_error(what)]. *)
Definition new_runtime_error (what : string) (fresh : option positive) : M ptr :=
  r ← allocate ByNew (RuntimeError what) fresh;
  match r with Some p => ret p | None => throw BadAlloc end.

(** [*(p + 0) = v] through an [int *]: the block must be live, hold ints,
    and the offset lie inside it. *)
Definition store (p : ptr) (v : Z) : M unit := λ h,
  match p with
  | Null => Undefined
  | Ptr b off =>
      match h !! b with
      | Some (Block k (Ints n cells)) =>
          if bool_decide (0 ≤ off < n)
          then Done () (<[b := Block k (Ints n (<[off := v]> cells))]> h)
          else Undefined
      | _ => Undefined
      end
  end.

(** [*p] read through an [int *]: as [store], and the int must have been
    initialised. *)
Definition load (p : ptr) : M Z := λ h,
  match p with
  | Null => Undefined
  | Ptr b off =>
      match h !! b with
      | Some (Block k (Ints n cells)) =>
          if bool_decide (0 ≤ off < n)
          then match cells !! off with
               | Some v => Done v h
               | None => Undefined
               end
          else Undefined
      | _ => Undefined
      end
  end.

(** Releasing a block: a null pointer is accepted and nothing happens;
    otherwise the pointer must be the one the allocator returned, for a
    live block obtained the matching way. *)
Definition release (k : alloc_kind) (p : ptr) : M unit := λ h,
  match p with
  | Null => Done () h
  | Ptr b off =>
      match h !! b with
      | Some blk =>
          if bool_decide (off = 0 ∧ b_kind blk = k)
          then Done () (delete b h)
          else Undefined
      | None => Undefined
      end
  end.

Definition free : ptr → M unit := release ByMalloc.
Definition delete_ : ptr → M unit := release ByNew.
Definition delete_array : ptr → M unit := release ByNewArray.

(** misra_violations.c: [void misra_rule_21_3(void)]. *)
Definition misra_rule_21_3 (fresh : option positive) : M unit :=
  p ← malloc_ints 10 fresh;
  match p with
  | Null => ret ()
  | _ => free p               (* if (p != NULL) { free(p); } *)
  end.

(** autosar_violations.cpp: [void autosar_a18_5_1()], the same shape
    with [std::malloc] and [std::free]. *)
Definition autosar_a18_5_1 (fresh : option positive) : M unit :=
  p ← malloc_ints 10 fresh;
  match p with
  | Null => ret ()
  | _ => free p               (* if (p != nullptr) { std::free(p); } *)
  end.

(** cert_c_violations.c: [void cert_mem30_c(void)]. *)
Definition cert_mem30_c (fresh : option positive) : M unit :=
  p ← malloc_ints 1 fresh;
  match p with
  | Null => ret ()            (* if (p == NULL) return; *)
  | _ =>
      store p 42;;            (* *p = 42; *)
      free p;;                (* free(p); *)
      val ← load p;           (* int val = *p; *)
      let _ := val in ret ()
  end.

(** cert_cpp_violations.cpp: [void cert_mem52_cpp()]. *)
Definition cert_mem52_cpp (fresh : option positive) : M unit :=
  p ← new_nothrow_ints 1000000000 fresh;
  store p 42;;                (* *p = 42; *)
  delete_array p.             (* delete[] p; *)

(** misra_cpp_violations.cpp: [void misra_cpp_18_4_1()]. *)
Definition misra_cpp_18_4_1 (fresh : option positive) : M unit :=
  p ← new_int 42 fresh;
  delete_ p.

(** autosar_violations.cpp: [void autosar_a15_1_2()].  The only handler
    is [catch (std::runtime_error *e)]. *)
Definition autosar_a15_1_2 (fresh : option positive) : M unit :=
  try_catch
    (e ← new_runtime_error "oops" fresh;
     throw (RuntimeErrorPtr e))
    (λ ex, match ex with
           | RuntimeErrorPtr e => Some (delete_ e)
           | BadAlloc => None
           end).

End Mem.

(** ** Decision procedures *)

#[global] Instance decl_eq_dec : EqDecision decl.
Proof. solve_decision. Defined.

#[global] Instance rule_section_eq_dec : EqDecision rule_section.
Proof. solve_decision. Defined.

#[global] Instance arg_eq_dec : EqDecision arg.
Proof. solve_decision. Defined.

#[global] Instance stmt_eq_dec : EqDecision stmt.
Proof. solve_decision. Defined.

#[global] Instance source_file_eq_dec : EqDecision source_file.
Proof. solve_decision. Defined.

#[global] Instance wired_section_dec f s : Decision (wired_section f s).
Proof. unfold wired_section. apply _. Defined.

(** Closes a decidable goal over the concrete files by evaluation. *)
Ltac by_evaluation :=
  lazymatch goal with
  | |- ?P => apply (bool_decide_unpack P); vm_compute; exact I
  end.

(** ** Rule 6-6-5: the sign function with three exits *)

Section Rule_6_6_5.
Import MisraCpp.

Lemma misra_cpp_6_6_5_pos (x : Z) : 0 < x → misra_cpp_6_6_5 x = 1.
Proof.
  intros Hx. unfold misra_cpp_6_6_5.
  destruct (Z.gtb_spec x 0); [reflexivity | lia].
Qed.

Lemma misra_cpp_6_6_5_neg (x : Z) : x < 0 → misra_cpp_6_6_5 x = -1.
Proof.
  intros Hx. unfold misra_cpp_6_6_5.
  destruct (Z.gtb_spec x 0); [lia |].
  destruct (Z.ltb_spec x 0); [reflexivity | lia].
Qed.

Lemma misra_cpp_6_6_5_zero : misra_cpp_6_6_5 0 = 0.
Proof. reflexivity. Qed.

(** The three exits together compute the sign of [x]. *)
Lemma misra_cpp_6_6_5_sgn (x : Z) : misra_cpp_6_6_5 x = Z.sgn x.
Proof.
  destruct (Z.lt_trichotomy x 0) as [Hn | [-> | Hp]].
  - rewrite misra_cpp_6_6_5_neg, Z.sgn_neg by lia. reflexivity.
  - reflexivity.
  - rewrite misra_cpp_6_6_5_pos, Z.sgn_pos by lia. reflexivity.
Qed.

(** The result is an [int] whatever the argument. *)
Lemma misra_cpp_6_6_5_in_range (x : Z) : CInt.in_range (misra_cpp_6_6_5 x).
Proof.
  rewrite misra_cpp_6_6_5_sgn. unfold CInt.in_range, CInt.INT_MIN, CInt.INT_MAX.
  pose proof (Z.sgn_spec x). lia.
Qed.

(** C9: for every int x, misra_cpp_6_6_5(x) returns 1 if x > 0, returns -1
    if x < 0, and returns 0 if x == 0.  Proved for every integer, hence for
    every value an int can hold. *)
Theorem misra_cpp_6_6_5_spec (x : Z) :
  (x > 0 → misra_cpp_6_6_5 x = 1) ∧
  (x < 0 → misra_cpp_6_6_5 x = -1) ∧
  (x = 0 → misra_cpp_6_6_5 x = 0).
Proof.
  repeat split.
  - intros Hx. apply misra_cpp_6_6_5_pos. lia.
  - apply misra_cpp_6_6_5_neg.
  - intros ->. apply misra_cpp_6_6_5_zero.
Qed.

(** The three cases at 5 (the argument [main] passes), at INT_MIN and
    at 0. *)
Lemma misra_cpp_6_6_5_spec_witness :
  misra_cpp_6_6_5 5 = 1 ∧
  misra_cpp_6_6_5 CInt.INT_MIN = -1 ∧
  misra_cpp_6_6_5 0 = 0.
Proof.
  split; [| split].
  - apply (misra_cpp_6_6_5_spec 5). reflexivity.
  - apply (misra_cpp_6_6_5_spec CInt.INT_MIN). reflexivity.
  - apply (misra_cpp_6_6_5_spec 0). reflexivity.
Defined.

End Rule_6_6_5.

(** ** CTR50-CPP: the subscript past the end *)

Section CTR50.
Import CertCpp.

(** A subscript at or past [size()] has no defined result. *)
Lemma subscript_past_the_end (vec : vector) (i : nat) :
  (length vec ≤ i)%nat → subscript vec i = None.
Proof. intros Hi. unfold subscript. by apply lookup_ge_None. Qed.

(** Inside the bounds the subscript does have a result. *)
Lemma subscript_in_bounds (vec : vector) (i : nat) :
  (i < length vec)%nat → is_Some (subscript vec i).
Proof. intros Hi. unfold subscript. by apply lookup_lt_is_Some. Qed.

(** C10: in every call to cert_ctr50_cpp the vector vec has exactly 3
    elements where index 5 is read, so the access vec[5] is out of bounds:
    the subscript returns None, and so does the function. *)
Theorem cert_ctr50_cpp_out_of_bounds :
  length cert_ctr50_cpp_vec = 3%nat ∧
  cert_ctr50_cpp_index = 5%nat ∧
  (length cert_ctr50_cpp_vec ≤ cert_ctr50_cpp_index)%nat ∧
  subscript cert_ctr50_cpp_vec cert_ctr50_cpp_index = None ∧
  cert_ctr50_cpp = None.
Proof.
  assert (Hlen : length cert_ctr50_cpp_vec = 3%nat) by reflexivity.
  assert (Hidx : cert_ctr50_cpp_index = 5%nat) by reflexivity.
  assert (Hle : (length cert_ctr50_cpp_vec ≤ cert_ctr50_cpp_index)%nat)
    by (rewrite Hlen, Hidx; lia).
  pose proof (subscript_past_the_end _ _ Hle) as Hnone.
  split; [exact Hlen |]. split; [exact Hidx |]. split; [exact Hle |].
  split; [exact Hnone |].
  unfold cert_ctr50_cpp. rewrite Hnone. reflexivity.
Qed.

End CTR50.

(** ** How the violations are wired into [main] *)

Section Wiring.

(** [main] of cert_cpp_violations.cpp has the call of [cert_err50_cpp]
    commented out. *)
Lemma cert_err50_cpp_not_called :
  "cert_err50_cpp" ∉ callees (main cert_cpp_violations).
Proof. by_evaluation. Qed.

(** [main] of autosar_violations.cpp has no call of [autosar_a15_1_2],
    though its banner announces a call of every violation function. *)
Lemma autosar_a15_1_2_not_called :
  "autosar_a15_1_2" ∉ callees (main autosar_violations).
Proof. by_evaluation. Qed.

(** The ERR58-CPP violation is the initialiser of a namespace-scope
    object, not a function. *)
Lemma global_str_is_an_object :
  Section_ "ERR58-CPP" [] (Decl "global_str" Object)
    ∈ sections cert_cpp_violations.
Proof. by_evaluation. Qed.

(** Every section of every file, checked by evaluation. *)
Lemma every_section_wired :
  Forall (λ f, Forall (wired_section f) (sections f)) repository.
Proof. by_evaluation. Qed.

(** Apart from the two functions set aside, each file's [main] calls the
    violation functions in the order of their sections. *)
Lemma main_call_order (f : source_file) :
  f ∈ repository →
  callees (main f) =
  filter (λ n, n ∉ ["cert_err50_cpp"; "autosar_a15_1_2"])
    (d_name <$> filter (λ d, d_kind d = Function) (violation <$> sections f)).
Proof.
  revert f. apply Forall_forall. by_evaluation.
Qed.

(** C8, as stated, fails: in cert_cpp_violations.cpp the function
    cert_err50_cpp violates ERR50-CPP and main does not call it. *)
Lemma wired_into_main_fails :
  ¬ (∀ f, f ∈ repository → wired_into_main f).
Proof.
  intros H.
  assert (Hf : cert_cpp_violations ∈ repository) by by_evaluation.
  assert (Hs : plain "ERR50-CPP" "cert_err50_cpp" ∈ sections cert_cpp_violations)
    by by_evaluation.
  destruct (H _ Hf _ Hs) as [_ Hcall].
  exact (cert_err50_cpp_not_called Hcall).
Qed.

(** C8, amended: in every source file, each rule-violating construct is
    a function, except global_str, autosar_a11_0_2_struct and
    misra_rule_8_7_global; and the file's main calls every violation
    function, except cert_err50_cpp (nothing is said of
    autosar_a15_1_2). *)
Theorem violations_wired_into_main (f : source_file) (s : rule_section) :
  f ∈ repository → s ∈ sections f →
  (d_kind (violation s) ≠ Function ↔ d_name (violation s) ∈ not_functions) ∧
  (d_kind (violation s) = Function →
   d_name (violation s) ≠ "cert_err50_cpp" →
   d_name (violation s) ≠ "autosar_a15_1_2" →
   d_name (violation s) ∈ callees (main f)).
Proof.
  intros Hf Hs.
  pose proof every_section_wired as Hall.
  rewrite Forall_forall in Hall. specialize (Hall f Hf).
  rewrite Forall_forall in Hall. exact (Hall s Hs).
Qed.

(** The amended wiring at the CTR50-CPP section of
    cert_cpp_violations.cpp: main calls cert_ctr50_cpp. *)
Lemma violations_wired_into_main_witness :
  cert_cpp_violations ∈ repository ∧
  plain "CTR50-CPP" "cert_ctr50_cpp" ∈ sections cert_cpp_violations ∧
  "cert_ctr50_cpp" ∈ callees (main cert_cpp_violations).
Proof.
  assert (Hf : cert_cpp_violations ∈ repository) by (vm_compute; repeat constructor).
  assert (Hs : plain "CTR50-CPP" "cert_ctr50_cpp" ∈ sections cert_cpp_violations)
    by (vm_compute; repeat constructor).
  split; [exact Hf |]. split; [exact Hs |].
  apply (violations_wired_into_main cert_cpp_violations
           (plain "CTR50-CPP" "cert_ctr50_cpp") Hf Hs);
    [reflexivity | discriminate | discriminate].
Defined.

End Wiring.

(** ** Signed arithmetic: where the results are defined *)

Section Int_arithmetic.
Import Arith.

Lemma checked_in_range (z : Z) :
  CInt.in_range z → CArith.checked z = Some z.
Proof. intros Hz. unfold CArith.checked. by rewrite bool_decide_eq_true_2. Qed.

Lemma checked_out_of_range (z : Z) :
  ¬ CInt.in_range z → CArith.checked z = None.
Proof. intros Hz. unfold CArith.checked. by rewrite bool_decide_eq_false_2. Qed.

(** autosar_a5_1_1(input) is input * 3600 exactly for the inputs from
    -596523 to 596523; for every other input the product overflows int
    and the call has no defined result. *)
Theorem autosar_a5_1_1_bounds (input : Z) :
  (-596523 ≤ input ≤ 596523 → autosar_a5_1_1 input = Some (input * 3600)) ∧
  (¬ (-596523 ≤ input ≤ 596523) → autosar_a5_1_1 input = None).
Proof.
  unfold autosar_a5_1_1, CArith.mul. split; intros Hi.
  - apply checked_in_range.
    unfold CInt.in_range, CInt.INT_MIN, CInt.INT_MAX. lia.
  - apply checked_out_of_range.
    unfold CInt.in_range, CInt.INT_MIN, CInt.INT_MAX. lia.
Qed.

(** At 10, the argument of [main], and just past the upper bound. *)
Lemma autosar_a5_1_1_bounds_witness :
  autosar_a5_1_1 10 = Some 36000 ∧ autosar_a5_1_1 596524 = None.
Proof.
  split.
  - apply (proj1 (autosar_a5_1_1_bounds 10)). lia.
  - apply (proj2 (autosar_a5_1_1_bounds 596524)). lia.
Defined.

(** For an int a, misra_rule_8_4_func(a) is a + 1 unless a is INT_MAX,
    where the increment overflows and the call has no defined result. *)
Theorem misra_rule_8_4_func_successor (a : Z) :
  CInt.in_range a →
  (a ≠ CInt.INT_MAX → misra_rule_8_4_func a = Some (a + 1)) ∧
  (a = CInt.INT_MAX → misra_rule_8_4_func a = None).
Proof.
  intros Ha. unfold misra_rule_8_4_func, CArith.add. split; intros Hm.
  - apply checked_in_range.
    unfold CInt.in_range, CInt.INT_MIN, CInt.INT_MAX in *. lia.
  - apply checked_out_of_range.
    unfold CInt.in_range, CInt.INT_MIN, CInt.INT_MAX in *. lia.
Qed.

(** At 1, the argument of [main]. *)
Lemma misra_rule_8_4_func_successor_witness :
  CInt.in_range 1 ∧ misra_rule_8_4_func 1 = Some 2.
Proof.
  assert (H1 : CInt.in_range 1) by (vm_compute; split; discriminate).
  split; [exact H1 |].
  apply (proj1 (misra_rule_8_4_func_successor 1 H1)). discriminate.
Defined.

End Int_arithmetic.

(** ** Rule 6-6-5: the function as an operation *)

Section Rule_6_6_5_algebra.
Import MisraCpp.

(** Applying misra_cpp_6_6_5 to its own result changes nothing. *)
Theorem misra_cpp_6_6_5_idempotent (x : Z) :
  misra_cpp_6_6_5 (misra_cpp_6_6_5 x) = misra_cpp_6_6_5 x.
Proof.
  rewrite !misra_cpp_6_6_5_sgn. apply Z.sgn_sgn.
Qed.

(** misra_cpp_6_6_5 keeps the order of its arguments. *)
Theorem misra_cpp_6_6_5_monotone (x y : Z) :
  x ≤ y → misra_cpp_6_6_5 x ≤ misra_cpp_6_6_5 y.
Proof.
  intros Hxy. rewrite !misra_cpp_6_6_5_sgn.
  pose proof (Z.sgn_spec x). pose proof (Z.sgn_spec y). lia.
Qed.

Lemma misra_cpp_6_6_5_monotone_witness :
  -3 ≤ 5 ∧ misra_cpp_6_6_5 (-3) ≤ misra_cpp_6_6_5 5.
Proof.
  assert (H : -3 ≤ 5) by lia.
  split; [exact H | exact (misra_cpp_6_6_5_monotone (-3) 5 H)].
Defined.

(** Negating the argument negates the result. *)
Theorem misra_cpp_6_6_5_opp (x : Z) :
  misra_cpp_6_6_5 (- x) = - misra_cpp_6_6_5 x.
Proof.
  rewrite !misra_cpp_6_6_5_sgn. apply Z.sgn_opp.
Qed.

End Rule_6_6_5_algebra.

(** ** Rule 15.6: the loop whose body also advances the counter *)

Section Rule_15_6.
Import Arith.

(** At or past 10 the condition fails and the loop is left at once. *)
Lemma misra_rule_15_6_loop_exit (fuel : nat) (i : Z) :
  10 ≤ i → misra_rule_15_6_loop (S fuel) i = Some i.
Proof.
  intros Hi. simpl. destruct (Z.ltb_spec i 10); [lia | reflexivity].
Qed.

(** Below 10 one round advances the counter by two, without overflow. *)
Lemma misra_rule_15_6_loop_round (fuel : nat) (i : Z) :
  CInt.INT_MIN ≤ i < 10 →
  misra_rule_15_6_loop (S fuel) i = misra_rule_15_6_loop fuel (i + 1 + 1).
Proof.
  intros Hi. simpl. destruct (Z.ltb_spec i 10); [| lia].
  unfold CArith.add.
  rewrite (checked_in_range (i + 1))
    by (unfold CInt.in_range, CInt.INT_MIN, CInt.INT_MAX in *; lia).
  simpl.
  rewrite (checked_in_range (i + 1 + 1))
    by (unfold CInt.in_range, CInt.INT_MIN, CInt.INT_MAX in *; lia).
  reflexivity.
Qed.

(** Entered with any int i, the loop for (; i < 10; i++) i++; ends:
    given fuel for its rounds and the last test, it leaves i unchanged
    when i is 10 or more, and otherwise exits with 10 when i is even and
    with 11 when i is odd. *)
Theorem misra_rule_15_6_loop_result (fuel : nat) (i : Z) :
  CInt.INT_MIN ≤ i →
  (0 < fuel)%nat →
  12 - i ≤ 2 * Z.of_nat fuel →
  misra_rule_15_6_loop fuel i = Some (if i <? 10 then 10 + i mod 2 else i).
Proof.
  revert i. induction fuel as [| fuel IH]; intros i Hmin Hpos Hfuel; [lia |].
  destruct (Z.ltb_spec i 10) as [Hlt | Hge].
  - rewrite misra_rule_15_6_loop_round by lia.
    rewrite IH; [| lia | lia | lia].
    replace ((i + 1 + 1) mod 2) with (i mod 2)
      by (replace (i + 1 + 1) with (i + 1 * 2) by lia;
          by rewrite Z.mod_add).
    destruct (Z.ltb_spec (i + 1 + 1) 10) as [Hlt' | Hge']; [reflexivity |].
    f_equal.
    assert (i = 8 ∨ i = 9) as [-> | ->] by lia; reflexivity.
  - by apply misra_rule_15_6_loop_exit.
Qed.

(** From 0, as the function enters it, with fuel for six tests. *)
Lemma misra_rule_15_6_loop_result_witness :
  misra_rule_15_6_loop 6 0 = Some 10.
Proof.
  apply (misra_rule_15_6_loop_result 6 0).
  - vm_compute. discriminate.
  - lia.
  - vm_compute. discriminate.
Defined.

(** misra_rule_15_6 leaves its loop after five rounds with i equal to
    10: six tests of the condition are enough and five are not. *)
Theorem misra_rule_15_6_five_rounds (fuel : nat) :
  misra_rule_15_6 fuel = if decide (6 ≤ fuel)%nat then Some 10 else None.
Proof.
  unfold misra_rule_15_6. case_decide as Hf.
  - rewrite misra_rule_15_6_loop_result; [reflexivity | | lia | lia].
    vm_compute. discriminate.
  - do 6 (destruct fuel as [| fuel]; [reflexivity |]). lia.
Qed.

End Rule_15_6.

(** ** Dynamic storage: the primitives *)

Section Storage.
Import Mem.

Implicit Types (h : heap) (b : positive) (p : ptr) (k : alloc_kind).

Lemma allocate_Some k c b h :
  allocate k c (Some b) h = Done (Some (Ptr b 0)) (<[b := Block k c]> h).
Proof. reflexivity. Qed.

Lemma allocate_None k c h : allocate k c None h = Done None h.
Proof. reflexivity. Qed.

(** Releasing what was just allocated, the matching way, gives back the
    heap as it was before the allocation. *)
Lemma release_allocated k c b h :
  h !! b = None →
  release k (Ptr b 0) (<[b := Block k c]> h) = Done () h.
Proof.
  intros Hb. unfold release. rewrite lookup_insert_eq. simpl.
  rewrite bool_decide_eq_true_2 by done.
  by rewrite delete_insert_id.
Qed.

(** Releasing a live block the matching way removes it from the heap. *)
Lemma release_live k c b h :
  h !! b = Some (Block k c) →
  release k (Ptr b 0) h = Done () (delete b h).
Proof.
  intros Hb. unfold release. rewrite Hb. simpl.
  by rewrite bool_decide_eq_true_2.
Qed.

(** A store into a live block of ints, inside its bounds, goes through
    and keeps the block live. *)
Lemma store_allocated k n cells b v h :
  0 < n →
  h !! b = Some (Block k (Ints n cells)) →
  store (Ptr b 0) v h =
    Done () (<[b := Block k (Ints n (<[0 := v]> cells))]> h).
Proof.
  intros Hn Hb. unfold store. rewrite Hb.
  by rewrite bool_decide_eq_true_2 by lia.
Qed.

(** What was stored is what is read back. *)
Lemma load_after_store p v h h' :
  store p v h = Done () h' → load p h' = Done v h'.
Proof.
  unfold store, load. destruct p as [| b off]; [done |].
  destruct (h !! b) as [[k [n cells | what]] |] eqn:Hb; try done.
  case_bool_decide as Hoff; [| done].
  intros [= <-]. rewrite lookup_insert_eq.
  rewrite bool_decide_eq_true_2 by done.
  by rewrite lookup_insert_eq.
Qed.

(** After a block is released, no read through the pointer is defined. *)
Lemma load_after_release k p h h' :
  p ≠ Null → release k p h = Done () h' → load p h' = Undefined.
Proof.
  unfold release, load. destruct p as [| b off]; [done |]. intros _.
  destruct (h !! b) as [blk |]; [| done].
  case_bool_decide; [| done].
  intros [= <-]. by rewrite lookup_delete_eq.
Qed.

(** Nor is a second release. *)
Lemma release_after_release k k' p h h' :
  p ≠ Null → release k p h = Done () h' → release k' p h' = Undefined.
Proof.
  unfold release. destruct p as [| b off]; [done |]. intros _.
  destruct (h !! b) as [blk |]; [| done].
  case_bool_decide; [| done].
  intros [= <-]. by rewrite lookup_delete_eq.
Qed.

End Storage.

(** ** Dynamic storage: the functions, for either answer of the allocator *)

Section Allocation.
Import Mem.

Implicit Types (h : heap) (b : positive).

Lemma bind_Done {A B} (m : M A) (f : A → M B) h a h' :
  m h = Done a h' → (m ≫= f) h = f a h'.
Proof. unfold mbind, M_bind, bind. by intros ->. Qed.

Lemma bind_Thrown {A B} (m : M A) (f : A → M B) h e h' :
  m h = Thrown e h' → (m ≫= f) h = Thrown e h'.
Proof. unfold mbind, M_bind, bind. by intros ->. Qed.

Lemma bind_Undefined {A B} (m : M A) (f : A → M B) h :
  m h = Undefined → (m ≫= f) h = Undefined.
Proof. unfold mbind, M_bind, bind. by intros ->. Qed.

Lemma malloc_ints_Some n b h :
  malloc_ints n (Some b) h =
    Done (Ptr b 0) (<[b := Block ByMalloc (Ints n ∅)]> h).
Proof. reflexivity. Qed.

Lemma malloc_ints_None n h : malloc_ints n None h = Done Null h.
Proof. reflexivity. Qed.

(** misra_rule_21_3 ends normally whether malloc fails or succeeds, and
    leaves the heap exactly as it found it: the block is released on the
    one path that obtained it. *)
Theorem misra_rule_21_3_restores_heap h :
  misra_rule_21_3 None h = Done () h ∧
  (∀ b, h !! b = None → misra_rule_21_3 (Some b) h = Done () h).
Proof.
  split; [reflexivity |]. intros b Hb. unfold misra_rule_21_3.
  rewrite (bind_Done _ _ _ _ _ (malloc_ints_Some 10 b h)).
  by apply release_allocated.
Qed.

Lemma misra_rule_21_3_restores_heap_witness :
  misra_rule_21_3 (Some 1%positive) ∅ = Done () ∅.
Proof.
  apply (proj2 (misra_rule_21_3_restores_heap ∅) 1%positive).
  apply lookup_empty.
Defined.

(** autosar_a18_5_1 likewise: normal end and an unchanged heap for
    either answer of std::malloc. *)
Theorem autosar_a18_5_1_restores_heap h :
  autosar_a18_5_1 None h = Done () h ∧
  (∀ b, h !! b = None → autosar_a18_5_1 (Some b) h = Done () h).
Proof.
  split; [reflexivity |]. intros b Hb. unfold autosar_a18_5_1.
  rewrite (bind_Done _ _ _ _ _ (malloc_ints_Some 10 b h)).
  by apply release_allocated.
Qed.

Lemma autosar_a18_5_1_restores_heap_witness :
  autosar_a18_5_1 (Some 1%positive) ∅ = Done () ∅.
Proof.
  apply (proj2 (autosar_a18_5_1_restores_heap ∅) 1%positive).
  apply lookup_empty.
Defined.

(** cert_mem30_c returns early, touching nothing, when malloc fails; when
    malloc succeeds, whatever block it hands out, the final read goes
    through the freed pointer and the call has no defined behaviour. *)
Theorem cert_mem30_c_use_after_free h :
  cert_mem30_c None h = Done () h ∧
  (∀ b, cert_mem30_c (Some b) h = Undefined).
Proof.
  split; [reflexivity |]. intros b. unfold cert_mem30_c.
  rewrite (bind_Done _ _ _ _ _ (malloc_ints_Some 1 b h)).
  set (h1 := <[b := Block ByMalloc (Ints 1 ∅)]> h).
  assert (Hstore : store (Ptr b 0) 42 h1 =
            Done () (<[b := Block ByMalloc (Ints 1 (<[0 := 42]> ∅))]> h1)).
  { apply store_allocated; [lia |]. apply lookup_insert_eq. }
  rewrite (bind_Done _ _ _ _ _ Hstore).
  set (h2 := <[b := _]> h1).
  assert (Hfree : free (Ptr b 0) h2 = Done () (delete b h2)).
  { unfold free, h2. apply release_live with (c := Ints 1 (<[0 := 42]> ∅)).
    apply lookup_insert_eq. }
  rewrite (bind_Done _ _ _ _ _ Hfree).
  apply bind_Undefined.
  by apply (load_after_release ByMalloc (Ptr b 0) h2).
Qed.

(** cert_mem52_cpp has no defined behaviour when the nothrow allocation
    fails (the store goes through the null pointer); when it succeeds the
    function ends normally and the heap is as before. *)
Theorem cert_mem52_cpp_unchecked_null h :
  cert_mem52_cpp None h = Undefined ∧
  (∀ b, h !! b = None → cert_mem52_cpp (Some b) h = Done () h).
Proof.
  split; [reflexivity |]. intros b Hb. unfold cert_mem52_cpp.
  assert (Hnew : new_nothrow_ints 1000000000 (Some b) h =
            Done (Ptr b 0) (<[b := Block ByNewArray (Ints 1000000000 ∅)]> h))
    by reflexivity.
  rewrite (bind_Done _ _ _ _ _ Hnew).
  set (h1 := <[b := _]> h).
  assert (Hstore : store (Ptr b 0) 42 h1 =
            Done () (<[b := Block ByNewArray
                              (Ints 1000000000 (<[0 := 42]> ∅))]> h1)).
  { apply store_allocated; [lia |]. apply lookup_insert_eq. }
  rewrite (bind_Done _ _ _ _ _ Hstore).
  unfold h1. rewrite insert_insert_eq.
  by apply release_allocated.
Qed.

Lemma cert_mem52_cpp_unchecked_null_witness :
  cert_mem52_cpp (Some 1%positive) ∅ = Done () ∅.
Proof.
  apply (proj2 (cert_mem52_cpp_unchecked_null ∅) 1%positive).
  apply lookup_empty.
Defined.

(** misra_cpp_18_4_1 lets std::bad_alloc escape when new fails; when it
    succeeds the int is deleted again and the heap is as before. *)
Theorem misra_cpp_18_4_1_new_delete h :
  misra_cpp_18_4_1 None h = Thrown BadAlloc h ∧
  (∀ b, h !! b = None → misra_cpp_18_4_1 (Some b) h = Done () h).
Proof.
  split; [reflexivity |]. intros b Hb. unfold misra_cpp_18_4_1.
  assert (Hnew : new_int 42 (Some b) h =
            Done (Ptr b 0) (<[b := Block ByNew (Ints 1 {[ 0 := 42 ]})]> h))
    by reflexivity.
  rewrite (bind_Done _ _ _ _ _ Hnew).
  by apply release_allocated.
Qed.

Lemma misra_cpp_18_4_1_new_delete_witness :
  misra_cpp_18_4_1 (Some 1%positive) ∅ = Done () ∅.
Proof.
  apply (proj2 (misra_cpp_18_4_1_new_delete ∅) 1%positive).
  apply lookup_empty.
Defined.

(** autosar_a15_1_2 catches the pointer it throws and deletes the
    exception object, leaving the heap as before; when the allocation of
    that object fails, std::bad_alloc matches no handler and escapes. *)
Theorem autosar_a15_1_2_catches_pointer h :
  autosar_a15_1_2 None h = Thrown BadAlloc h ∧
  (∀ b, h !! b = None → autosar_a15_1_2 (Some b) h = Done () h).
Proof.
  split; [reflexivity |]. intros b Hb. unfold autosar_a15_1_2, try_catch.
  assert (Hnew : new_runtime_error "oops" (Some b) h =
            Done (Ptr b 0) (<[b := Block ByNew (RuntimeError "oops")]> h))
    by reflexivity.
  rewrite (bind_Done _ _ _ _ _ Hnew). simpl.
  by apply release_allocated.
Qed.

Lemma autosar_a15_1_2_catches_pointer_witness :
  autosar_a15_1_2 (Some 1%positive) ∅ = Done () ∅.
Proof.
  apply (proj2 (autosar_a15_1_2_catches_pointer ∅) 1%positive).
  apply lookup_empty.
Defined.

End Allocation.

(** ** The order of the calls in [main] *)

Section Wiring_order.

(** The calls of [main] in cert_cpp_violations.cpp, read off its
    sections. *)
Lemma main_call_order_witness :
  cert_cpp_violations ∈ repository ∧
  callees (main cert_cpp_violations) =
  filter (λ n, n ∉ ["cert_err50_cpp"; "autosar_a15_1_2"])
    (d_name <$> filter (λ d, d_kind d = Function)
                  (violation <$> sections cert_cpp_violations)).
Proof.
  assert (Hf : cert_cpp_violations ∈ repository) by by_evaluation.
  split; [exact Hf | exact (main_call_order cert_cpp_violations Hf)].
Defined.

End Wiring_order.
